(** * backend/main.py: the local proxy in front of the Colab model server

    A shallow embedding of the three JSON routes of [backend/main.py]
    ([health], [generate], [colab_status]) and the properties of the relay
    that follow from them.

    The handlers are coroutines that talk to the model server through
    [httpx] and answer through FastAPI.  Neither library is part of the
    repository; what the handlers rely on is modelled below:
    - Python exceptions as values with a class, and [except C] as a test
      against the class hierarchy;
    - an outbound HTTP call as a step that records the call and asks the
      network (an arbitrary function of the calls made so far) for the reply;
    - FastAPI's translation of a handler's outcome into a status code. *)

From Stdlib Require Import ZArith String List Bool Lia DecimalString.
From ExtLib Require Import Structures.Monad Structures.MonadExc.
Import ListNotations.
Import MonadNotation.

Open Scope string_scope.
Open Scope Z_scope.
Open Scope monad_scope.

Set Warnings "-register-all".

(** ** JSON values, as Python's [json] module decodes them *)

Inductive json : Type :=
| JNull
| JBool (b : bool)
| JInt (n : Z)
| JFloat (bits : Z)                      (* a binary64 float, by its 64-bit pattern *)
| JStr (s : string)
| JList (items : list json)
| JDict (fields : list (string * json)). (* a dict, in insertion order *)

(** ** Python values the handlers use *)

(** [bool(s)] of a string: only the empty string is falsy. *)
Definition truthy (s : string) : bool :=
  match s with
  | EmptyString => false
  | String _ _ => true
  end.

(** [str(n)] of an integer. *)
Definition str_int (n : Z) : string := NilZero.string_of_int (Z.to_int n).

(** The exception classes that can reach the handlers: the builtins, the
    [httpx] hierarchy and FastAPI's [HTTPException]. *)
Inductive pyclass : Set :=
| BaseException | KeyboardInterrupt | CancelledError | Exception
| AttributeError | RuntimeError
| ValueError | JSONDecodeError | UnicodeError | UnicodeDecodeError
| HTTPError | RequestError | TransportError
| TimeoutException | ConnectTimeout | ReadTimeout | WriteTimeout | PoolTimeout
| NetworkError | ConnectError | ReadError | WriteError | CloseError
| ProtocolError | LocalProtocolError | RemoteProtocolError
| ProxyError | UnsupportedProtocol
| DecodingError | TooManyRedirects
| HTTPStatusError
| InvalidURL | CookieConflict
| HTTPExceptionClass.

Scheme Equality for pyclass.

(** The direct base class ([__base__]) of each class. *)
Definition base (c : pyclass) : option pyclass :=
  match c with
  | BaseException => None
  | KeyboardInterrupt | CancelledError | Exception => Some BaseException
  | AttributeError | RuntimeError | ValueError => Some Exception
  | JSONDecodeError | UnicodeError => Some ValueError
  | UnicodeDecodeError => Some UnicodeError
  | HTTPError | InvalidURL | CookieConflict | HTTPExceptionClass => Some Exception
  | RequestError | HTTPStatusError => Some HTTPError
  | TransportError | DecodingError | TooManyRedirects => Some RequestError
  | TimeoutException | NetworkError | ProtocolError
  | ProxyError | UnsupportedProtocol => Some TransportError
  | ConnectTimeout | ReadTimeout | WriteTimeout | PoolTimeout => Some TimeoutException
  | ConnectError | ReadError | WriteError | CloseError => Some NetworkError
  | LocalProtocolError | RemoteProtocolError => Some ProtocolError
  end.

(** The class followed by its ancestors, up to [depth] steps up. *)
Fixpoint ancestry (depth : nat) (c : pyclass) : list pyclass :=
  c :: match depth with
       | O => []
       | S d => match base c with
                | Some b => ancestry d b
                | None => []
                end
       end.

(** No class is more than six steps below [BaseException]. *)
Definition mro (c : pyclass) : list pyclass := ancestry 6 c.

Definition issubclass (c d : pyclass) : bool := existsb (pyclass_beq d) (mro c).

(** ** The model server's answers *)

(** Why a response body does not decode: [json.loads] raises
    [JSONDecodeError] on bad syntax and [UnicodeDecodeError] on bytes that are
    no Unicode text; both are [ValueError]s. *)
Inductive decode_error : Type :=
| BadSyntax (message : string)
| BadEncoding (message : string).

(** A response body is either a JSON document, given by the value it decodes
    to, or bytes that do not decode. *)
Inductive Body : Type :=
| JsonDocument (value : json)
| Undecodable (raw : string) (why : decode_error).

(** An [httpx.Response].  [status_error_text] is the message [httpx] composes
    for the [HTTPStatusError] of this response; it is built from the status
    line and the request URL, which the handlers do not look at. *)
Record Response : Type := mkResponse {
  status_code : Z;
  body : Body;
  status_error_text : string
}.

(** Exception values. *)
Inductive exn : Type :=
| Error (cls : pyclass) (message : string)          (* cls(message) *)
| StatusError (message : string) (response : Response)
                                                    (* httpx.HTTPStatusError *)
| HTTPException (status_code : Z) (detail : string). (* fastapi.HTTPException *)

Definition type_of (e : exn) : pyclass :=
  match e with
  | Error cls _ => cls
  | StatusError _ _ => HTTPStatusError
  | HTTPException _ _ => HTTPExceptionClass
  end.

Definition isinstance (e : exn) (c : pyclass) : bool := issubclass (type_of e) c.

(** [str(e)]: the message the exception was built with; Starlette prints an
    [HTTPException] as its status code and detail. *)
Definition str (e : exn) : string :=
  match e with
  | Error _ message => message
  | StatusError message _ => message
  | HTTPException code detail => str_int code ++ ": " ++ detail
  end.

(** ** Coroutines that make outbound calls *)

Inductive Method : Set := GET | POST.

(** One outbound call, as the client sends it ([timeout] in seconds). *)
Record Call : Type := mkCall {
  method : Method;
  url : string;
  payload : option json;
  timeout : Z
}.

Inductive Reply : Type :=
| Responded (r : Response)
| Failed (e : exn).

(** The network decides the reply to a call; it may depend on the calls made
    before. *)
Definition Network : Type := list Call -> Call -> Reply.

Inductive Outcome (A : Type) : Type :=
| Returned (a : A)
| Raised (e : exn).

Arguments Returned {A} a.
Arguments Raised {A} e.

(** A coroutine runs against a network, from the calls made so far, and ends
    by returning or raising, with the calls extended by its own. *)
Definition Async (A : Type) : Type := Network -> list Call -> Outcome A * list Call.

#[global] Instance Monad_Async : Monad Async := {
  ret := fun _ a _ calls => (Returned a, calls);
  bind := fun _ _ m k net calls =>
    match m net calls with
    | (Returned a, calls') => k a net calls'
    | (Raised e, calls') => (Raised e, calls')
    end
}.

#[global] Instance Exc_Async : MonadExc exn Async := {
  raise := fun _ e _ calls => (Raised e, calls);
  catch := fun _ m handler net calls =>
    match m net calls with
    | (Returned a, calls') => (Returned a, calls')
    | (Raised e, calls') => handler e net calls'
    end
}.

(** [try: ... except C1 as e: ... except C2 as e: ...]: the first clause whose
    class the exception is an instance of handles it; with no such clause the
    exception goes on. *)
Fixpoint dispatch {A} (e : exn) (clauses : list (pyclass * (exn -> Async A))) : Async A :=
  match clauses with
  | [] => raise e
  | (c, handler) :: rest => if isinstance e c then handler e else dispatch e rest
  end.

Definition try_except {A} (block : Async A) (clauses : list (pyclass * (exn -> Async A)))
  : Async A :=
  catch block (fun e => dispatch e clauses).

(** ** httpx *)

Record AsyncClient : Type := mkAsyncClient { client_timeout : Z }.

(** [async with client_ as client: block]: leaving the block closes the
    client and lets the block's result or exception through. *)
Definition async_with {A} (client : AsyncClient) (block : AsyncClient -> Async A) : Async A :=
  block client.

(** Sending a call: it is recorded, and the network's reply is the response
    returned or the exception raised. *)
Definition send (c : Call) : Async Response :=
  fun net calls =>
    (match net calls c with
     | Responded r => Returned r
     | Failed e => Raised e
     end, (calls ++ [c])%list).

(** [client.post(url, json=data)] *)
Definition post (client : AsyncClient) (target : string) (data : json) : Async Response :=
  send (mkCall POST target (Some data) (client_timeout client)).

(** [client.get(url)] *)
Definition get (client : AsyncClient) (target : string) : Async Response :=
  send (mkCall GET target None (client_timeout client)).

(** [response.is_success]: a 2xx status. *)
Definition is_success (r : Response) : bool :=
  (200 <=? status_code r) && (status_code r <=? 299).

(** [response.raise_for_status()] *)
Definition raise_for_status (r : Response) : Async unit :=
  if is_success r then ret tt
  else raise (StatusError (status_error_text r) r).

(** The exception [json.loads] raises on a body that does not decode. *)
Definition decode_exception (why : decode_error) : exn :=
  match why with
  | BadSyntax message => Error JSONDecodeError message
  | BadEncoding message => Error UnicodeDecodeError message
  end.

(** [response.json()] *)
Definition json_of (r : Response) : Async json :=
  match body r with
  | JsonDocument value => ret value
  | Undecodable _ why => raise (decode_exception why)
  end.

(** [e.response]: only an [HTTPStatusError] has the attribute. *)
Definition response_of (e : exn) : Async Response :=
  match e with
  | StatusError _ r => ret r
  | _ => raise (Error AttributeError "object has no attribute 'response'")
  end.

(** ** FastAPI *)

(** A binary64 pattern is a finite number unless its eleven exponent bits are
    all ones (the infinities and the NaNs). *)
Definition float_is_finite (bits : Z) : bool :=
  negb (Z.land (Z.shiftr bits 52) 0x7FF =? 0x7FF).

(** What [json.loads] makes of [Infinity] (and of a number too large for a
    float, such as [1e400]) and of [NaN]. *)
Definition float_infinity : Z := 0x7FF0000000000000.
Definition float_nan : Z := 0x7FF8000000000000.

(** FastAPI serialises what a handler returns with
    [json.dumps(..., allow_nan=False)], which refuses a value that holds a
    float that is not finite.  This is the one refusal modelled; any other
    (a value nested deeper than the interpreter's recursion limit) ends in
    500 as well, which is why a statement below about an arbitrary returned
    payload says "200 or 500" and never "200". *)
Fixpoint json_compliant (v : json) : bool :=
  match v with
  | JFloat bits => float_is_finite bits
  | JList items => forallb json_compliant items
  | JDict fields => forallb (fun field => json_compliant (snd field)) fields
  | _ => true
  end.

(** The status code a route answers with.  When the handler returns, the
    value is serialised and the route answers its default 200; when the
    serialiser refuses the value, its [ValueError] escapes and the route answers
    500.  When the handler raises an [HTTPException] the route answers the
    exception's own status code, and 500 (internal server error) when any
    other exception escapes. *)
Definition http_status (o : Outcome json) : Z :=
  match o with
  | Returned v => if json_compliant v then 200 else 500
  | Raised (HTTPException code _) => code
  | Raised _ => 500
  end.

(** ** backend/main.py *)

(** [class PromptRequest(BaseModel)] *)
Record PromptRequest : Type := mkPromptRequest { prompt : string }.

Section Backend.

(** [COLAB_API_URL = os.getenv("COLAB_API_URL", "")], read once when the
    module is loaded. *)
Variable COLAB_API_URL : string.

(** [@app.get("/health")] *)
Definition health : Async json :=
  ret (JDict [("status", JStr "ok");
              ("colab_url_configured", JBool (truthy COLAB_API_URL))]).

(** [@app.post("/api/generate")] *)
Definition generate (request : PromptRequest) : Async json :=
  if negb (truthy COLAB_API_URL) then
    raise (HTTPException 503
             "COLAB_API_URL not set. Please add it to your .env file.")
  else
    async_with (mkAsyncClient 300) (fun client =>
      try_except
        (response <- post client (COLAB_API_URL ++ "/generate")
                       (JDict [("prompt", JStr (prompt request))]) ;;
         raise_for_status response ;;
         json_of response)
        [ (ConnectError, fun _ =>
             raise (HTTPException 503
               "Cannot connect to Colab model server. Make sure the Colab notebook is running."));
          (TimeoutException, fun _ =>
             raise (HTTPException 504
               "Model server timed out. Generation can take 1-3 minutes, please try again."));
          (HTTPStatusError, fun e =>
             response <- response_of e ;;
             raise (HTTPException (status_code response) (str e))) ]).

(** [@app.get("/api/colab-status")] *)
Definition colab_status : Async json :=
  if negb (truthy COLAB_API_URL) then
    ret (JDict [("online", JBool false);
                ("reason", JStr "COLAB_API_URL not configured")])
  else
    async_with (mkAsyncClient 10) (fun client =>
      try_except
        (response <- get client (COLAB_API_URL ++ "/health") ;;
         detail <- json_of response ;;
         ret (JDict [("online", JBool true); ("detail", detail)]))
        [ (Exception, fun e =>
             ret (JDict [("online", JBool false); ("reason", JStr (str e))])) ]).

End Backend.

(** ** The errors of the relay *)

(** The design's names for the four [HTTPException]s that [generate] raises. *)
Inductive ErrorKind : Type :=
| NotConfigured
| Unreachable
| Timeout
| UpstreamError (code : Z) (message : string).

Definition exception_of (k : ErrorKind) : exn :=
  match k with
  | NotConfigured =>
      HTTPException 503 "COLAB_API_URL not set. Please add it to your .env file."
  | Unreachable =>
      HTTPException 503
        "Cannot connect to Colab model server. Make sure the Colab notebook is running."
  | Timeout =>
      HTTPException 504
        "Model server timed out. Generation can take 1-3 minutes, please try again."
  | UpstreamError code message => HTTPException code message
  end.

(** The call [generate] makes for a prompt, and the one [colab_status] makes. *)
Definition generation_call (base_url : string) (request : PromptRequest) : Call :=
  mkCall POST (base_url ++ "/generate") (Some (JDict [("prompt", JStr (prompt request))])) 300.

Definition health_call (base_url : string) : Call :=
  mkCall GET (base_url ++ "/health") None 10.

(** A network that gives every call the same reply. *)
Definition always (reply : Reply) : Network := fun _ _ => reply.

(** * Properties *)

(** ** Strings and classes *)

Lemma truthy_nonempty (s : string) : truthy s = true <-> s <> "".
Proof.
  destruct s; simpl; split; intro H; try discriminate; try reflexivity.
  now contradiction H.
Qed.

Lemma truthy_configured (s : string) : s <> "" -> truthy s = true.
Proof. apply truthy_nonempty. Qed.

(** Six steps up are enough: the ancestry of every class ends at
    [BaseException]. *)
Lemma mro_reaches_root (c : pyclass) : last (mro c) c = BaseException.
Proof. destruct c; reflexivity. Qed.

Lemma issubclass_refl (c : pyclass) : issubclass c c = true.
Proof. destruct c; reflexivity. Qed.

(** Everything [httpx] raises for a failed request is an [Exception]. *)
Lemma request_error_is_exception (c : pyclass) :
  issubclass c RequestError = true -> issubclass c Exception = true.
Proof. destruct c; vm_compute; congruence. Qed.

(** A timeout is never a connect error, and the other way round: the two
    classes sit in different branches below [TransportError]. *)
Lemma timeout_not_connect_error (c : pyclass) :
  issubclass c TimeoutException = true -> issubclass c ConnectError = false.
Proof. destruct c; vm_compute; congruence. Qed.

(** The [except] clauses of [generate] leave a [ValueError] alone. *)
Lemma value_error_not_caught (c : pyclass) :
  issubclass c ValueError = true ->
  issubclass c ConnectError = false /\
  issubclass c TimeoutException = false /\
  issubclass c HTTPStatusError = false.
Proof. destruct c; vm_compute; intuition congruence. Qed.

(** ** Running the handlers against one reply *)

Ltac configured_run H :=
  rewrite (truthy_configured _ H);
  cbn -[isinstance is_success json_of response_of str].

Section OneReply.

Variables (base_url : string) (request : PromptRequest).
Variables (net : Network) (calls : list Call).
Hypothesis configured : base_url <> "".

Let sent := (calls ++ [generation_call base_url request])%list.
Let probed := (calls ++ [health_call base_url])%list.

Lemma generate_calls : snd (generate base_url request net calls) = sent.
Proof.
  unfold generate, sent, generation_call. configured_run configured.
  destruct (net calls _) as [r | e].
  - unfold raise_for_status. destruct (is_success r); cbn -[json_of]; [| reflexivity].
    unfold json_of. destruct (body r) as [v | raw [m | m]]; reflexivity.
  - destruct (isinstance e ConnectError); [reflexivity |].
    destruct (isinstance e TimeoutException); [reflexivity |].
    destruct (isinstance e HTTPStatusError); [| reflexivity].
    destruct e; reflexivity.
Qed.

Lemma generate_success (r : Response) (P : json) :
  net calls (generation_call base_url request) = Responded r ->
  is_success r = true ->
  body r = JsonDocument P ->
  generate base_url request net calls = (Returned P, sent).
Proof.
  intros Hnet Hok Hbody.
  unfold generate, sent, generation_call in *. configured_run configured.
  rewrite Hnet. unfold raise_for_status. rewrite Hok. cbn -[json_of].
  unfold json_of. rewrite Hbody. reflexivity.
Qed.

Lemma generate_undecodable (r : Response) (raw : string) (why : decode_error) :
  net calls (generation_call base_url request) = Responded r ->
  is_success r = true ->
  body r = Undecodable raw why ->
  generate base_url request net calls = (Raised (decode_exception why), sent).
Proof.
  intros Hnet Hok Hbody.
  unfold generate, sent, generation_call in *. configured_run configured.
  rewrite Hnet. unfold raise_for_status. rewrite Hok. cbn -[json_of].
  unfold json_of. rewrite Hbody. destruct why; reflexivity.
Qed.

Lemma generate_status_error (r : Response) :
  net calls (generation_call base_url request) = Responded r ->
  is_success r = false ->
  generate base_url request net calls
  = (Raised (HTTPException (status_code r) (status_error_text r)), sent).
Proof.
  intros Hnet Hok.
  unfold generate, sent, generation_call in *. configured_run configured.
  rewrite Hnet. unfold raise_for_status. rewrite Hok. reflexivity.
Qed.

Lemma generate_connect_error (e : exn) :
  net calls (generation_call base_url request) = Failed e ->
  isinstance e ConnectError = true ->
  generate base_url request net calls = (Raised (exception_of Unreachable), sent).
Proof.
  intros Hnet Hcls.
  unfold generate, sent, generation_call in *. configured_run configured.
  rewrite Hnet, Hcls. reflexivity.
Qed.

Lemma generate_timeout (e : exn) :
  net calls (generation_call base_url request) = Failed e ->
  isinstance e TimeoutException = true ->
  generate base_url request net calls = (Raised (exception_of Timeout), sent).
Proof.
  intros Hnet Hcls.
  unfold generate, sent, generation_call in *. configured_run configured.
  rewrite Hnet, (timeout_not_connect_error (type_of e) Hcls : isinstance e _ = _), Hcls.
  reflexivity.
Qed.

Lemma colab_status_online (r : Response) (detail : json) :
  net calls (health_call base_url) = Responded r ->
  body r = JsonDocument detail ->
  colab_status base_url net calls
  = (Returned (JDict [("online", JBool true); ("detail", detail)]), probed).
Proof.
  intros Hnet Hbody.
  unfold colab_status, probed, health_call in *. configured_run configured.
  rewrite Hnet. unfold json_of. rewrite Hbody. reflexivity.
Qed.

Lemma colab_status_undecodable (r : Response) (raw : string) (why : decode_error) :
  net calls (health_call base_url) = Responded r ->
  body r = Undecodable raw why ->
  colab_status base_url net calls
  = (Returned (JDict [("online", JBool false);
                      ("reason", JStr (str (decode_exception why)))]), probed).
Proof.
  intros Hnet Hbody.
  unfold colab_status, probed, health_call in *. configured_run configured.
  rewrite Hnet. unfold json_of. rewrite Hbody. destruct why; reflexivity.
Qed.

Lemma colab_status_failed (e : exn) :
  net calls (health_call base_url) = Failed e ->
  isinstance e Exception = true ->
  colab_status base_url net calls
  = (Returned (JDict [("online", JBool false); ("reason", JStr (str e))]), probed).
Proof.
  intros Hnet Hcls.
  unfold colab_status, probed, health_call in *. configured_run configured.
  rewrite Hnet, Hcls. reflexivity.
Qed.

End OneReply.

Lemma is_success_range (r : Response) :
  is_success r = true <-> 200 <= status_code r <= 299.
Proof. unfold is_success. rewrite andb_true_iff, !Z.leb_le. reflexivity. Qed.

Lemma not_success_range (r : Response) :
  ~ (200 <= status_code r <= 299) -> is_success r = false.
Proof.
  intro H. destruct (is_success r) eqn:E; [| reflexivity].
  apply is_success_range in E. contradiction.
Qed.

(** ** GET /health *)

(** C9: [health] always returns [{status: "ok", colab_url_configured: b}]
    (status 200, no outbound call), where [b] is true exactly when the
    upstream base address is not empty. *)
Theorem health_reports_configuration :
  forall (base_url : string) (net : Network) (calls : list Call),
    exists b : bool,
      health base_url net calls
      = (Returned (JDict [("status", JStr "ok"); ("colab_url_configured", JBool b)]),
         calls) /\
      (b = true <-> base_url <> "") /\
      http_status (fst (health base_url net calls)) = 200.
Proof.
  intros base_url net calls. exists (truthy base_url).
  split; [reflexivity |]. split; [apply truthy_nonempty | reflexivity].
Qed.

(** ** POST /api/generate *)

(** C1, as stated, fails at the route: when the upstream answers 200 with a
    payload that holds a float that is not finite (here [{"x": Infinity}],
    which is also what [{"x": 1e400}] decodes to), [generate] does return
    the payload, but FastAPI refuses to serialise it and the route answers
    500: the answer of /api/generate is not the upstream's body. *)
Lemma generate_non_finite_payload_is_500 :
  fst (generate "http://colab" (mkPromptRequest "a cat")
         (always (Responded
                    (mkResponse 200 (JsonDocument (JDict [("x", JFloat float_infinity)])) "")))
         [])
  = Returned (JDict [("x", JFloat float_infinity)]) /\
  http_status
    (fst (generate "http://colab" (mkPromptRequest "a cat")
            (always (Responded
                       (mkResponse 200 (JsonDocument (JDict [("x", JFloat float_infinity)]))
                          "")))
            []))
  = 500 /\
  http_status
    (fst (generate "http://colab" (mkPromptRequest "a cat")
            (always (Responded
                       (mkResponse 200 (JsonDocument (JDict [("x", JFloat float_infinity)]))
                          "")))
            []))
  <> 200.
Proof. repeat split. discriminate. Qed.

(** C1, amended: with a configured upstream whose generation endpoint answers
    200 with payload [P], the handler [generate] returns exactly [P].  The
    route then answers 200 or 500, and it answers 500, without the payload,
    when [P] holds a float that is not finite. *)
Theorem generate_returns_payload_unmodified :
  forall (base_url : string) (request : PromptRequest) (net : Network)
         (calls : list Call) (r : Response) (P : json),
    base_url <> "" ->
    net calls (generation_call base_url request) = Responded r ->
    status_code r = 200 ->
    body r = JsonDocument P ->
    fst (generate base_url request net calls) = Returned P /\
    (http_status (fst (generate base_url request net calls)) = 200 \/
     http_status (fst (generate base_url request net calls)) = 500) /\
    (json_compliant P = false ->
     http_status (fst (generate base_url request net calls)) = 500).
Proof.
  intros base_url request net calls r P Hcfg Hnet Hcode Hbody.
  assert (Hok : is_success r = true) by (apply is_success_range; lia).
  rewrite (generate_success base_url request net calls Hcfg r P Hnet Hok Hbody).
  cbn [fst]. unfold http_status.
  destruct (json_compliant P); repeat split; auto; discriminate.
Qed.

Lemma generate_returns_payload_unmodified_witness :
  let reply := mkResponse 200 (JsonDocument (JDict [("image", JStr "aGVsbG8=")])) "" in
  fst (generate "http://colab" (mkPromptRequest "a cat") (always (Responded reply)) [])
  = Returned (JDict [("image", JStr "aGVsbG8=")]) /\
  (http_status
     (fst (generate "http://colab" (mkPromptRequest "a cat") (always (Responded reply)) []))
   = 200 \/
   http_status
     (fst (generate "http://colab" (mkPromptRequest "a cat") (always (Responded reply)) []))
   = 500) /\
  (json_compliant (JDict [("image", JStr "aGVsbG8=")]) = false ->
   http_status
     (fst (generate "http://colab" (mkPromptRequest "a cat") (always (Responded reply)) []))
   = 500).
Proof.
  intro reply.
  apply (generate_returns_payload_unmodified
           "http://colab" (mkPromptRequest "a cat") (always (Responded reply)) [] reply
           (JDict [("image", JStr "aGVsbG8=")])).
  - discriminate.
  - reflexivity.
  - reflexivity.
  - reflexivity.
Defined.

(** C2: with no upstream base address, [generate] fails with NotConfigured
    (status 503) for every prompt, and no outbound call is made: the calls
    are the same after as before, whatever the network would have replied. *)
Theorem generate_unconfigured :
  forall (request : PromptRequest) (net : Network) (calls : list Call),
    generate "" request net calls = (Raised (exception_of NotConfigured), calls) /\
    http_status (fst (generate "" request net calls)) = 503.
Proof. intros request net calls. split; reflexivity. Qed.

(** C3: with a configured upstream, a call that fails with a connect error
    makes [generate] fail with Unreachable, status 503, and a call that fails
    with a timeout makes it fail with Timeout, status 504. *)
Theorem generate_unreachable_and_timeout :
  forall (base_url : string) (request : PromptRequest) (net : Network)
         (calls : list Call) (e : exn),
    base_url <> "" ->
    net calls (generation_call base_url request) = Failed e ->
    (isinstance e ConnectError = true ->
     fst (generate base_url request net calls) = Raised (exception_of Unreachable) /\
     http_status (fst (generate base_url request net calls)) = 503) /\
    (isinstance e TimeoutException = true ->
     fst (generate base_url request net calls) = Raised (exception_of Timeout) /\
     http_status (fst (generate base_url request net calls)) = 504).
Proof.
  intros base_url request net calls e Hcfg Hnet. split; intro Hcls.
  - rewrite (generate_connect_error base_url request net calls Hcfg e Hnet Hcls). split; reflexivity.
  - rewrite (generate_timeout base_url request net calls Hcfg e Hnet Hcls). split; reflexivity.
Qed.

Lemma generate_unreachable_and_timeout_witness :
  (fst (generate "http://colab" (mkPromptRequest "a cat")
          (always (Failed (Error ConnectError "All connection attempts failed"))) [])
   = Raised (exception_of Unreachable) /\
   http_status
     (fst (generate "http://colab" (mkPromptRequest "a cat")
             (always (Failed (Error ConnectError "All connection attempts failed"))) []))
   = 503) /\
  (fst (generate "http://colab" (mkPromptRequest "a cat")
          (always (Failed (Error ReadTimeout ""))) [])
   = Raised (exception_of Timeout) /\
   http_status
     (fst (generate "http://colab" (mkPromptRequest "a cat")
             (always (Failed (Error ReadTimeout ""))) []))
   = 504).
Proof.
  split.
  - apply (generate_unreachable_and_timeout
             "http://colab" (mkPromptRequest "a cat")
             (always (Failed (Error ConnectError "All connection attempts failed"))) []
             (Error ConnectError "All connection attempts failed"));
      [discriminate | reflexivity | reflexivity].
  - apply (generate_unreachable_and_timeout
             "http://colab" (mkPromptRequest "a cat")
             (always (Failed (Error ReadTimeout ""))) []
             (Error ReadTimeout ""));
      [discriminate | reflexivity | reflexivity].
Defined.

(** C4: with a configured upstream that answers a status [S] outside 2xx,
    [generate] fails with UpstreamError carrying [S], and the route answers
    with exactly [S]. *)
Theorem generate_passes_upstream_status :
  forall (base_url : string) (request : PromptRequest) (net : Network)
         (calls : list Call) (r : Response),
    base_url <> "" ->
    net calls (generation_call base_url request) = Responded r ->
    ~ (200 <= status_code r <= 299) ->
    fst (generate base_url request net calls)
    = Raised (exception_of (UpstreamError (status_code r) (status_error_text r))) /\
    http_status (fst (generate base_url request net calls)) = status_code r.
Proof.
  intros base_url request net calls r Hcfg Hnet Hcode.
  rewrite (generate_status_error base_url request net calls Hcfg r Hnet
             (not_success_range r Hcode)).
  split; reflexivity.
Qed.

Lemma generate_passes_upstream_status_witness :
  let reply :=
    mkResponse 500 (JsonDocument (JDict [("detail", JStr "CUDA out of memory")]))
      "Server error '500 Internal Server Error' for url 'http://colab/generate'" in
  fst (generate "http://colab" (mkPromptRequest "a cat") (always (Responded reply)) [])
  = Raised (exception_of (UpstreamError 500 (status_error_text reply))) /\
  http_status
    (fst (generate "http://colab" (mkPromptRequest "a cat") (always (Responded reply)) []))
  = 500.
Proof.
  intro reply.
  apply (generate_passes_upstream_status
           "http://colab" (mkPromptRequest "a cat") (always (Responded reply)) [] reply).
  - discriminate.
  - reflexivity.
  - simpl. lia.
Defined.

(** C7: with a configured upstream, a connect timeout (a [ConnectTimeout],
    which derives from [TimeoutException] and not from [ConnectError]) makes
    [generate] fail with Timeout, status 504, and not with Unreachable. *)
Theorem generate_connect_timeout_is_timeout :
  forall (base_url : string) (request : PromptRequest) (net : Network)
         (calls : list Call) (message : string),
    base_url <> "" ->
    net calls (generation_call base_url request) = Failed (Error ConnectTimeout message) ->
    fst (generate base_url request net calls) = Raised (exception_of Timeout) /\
    http_status (fst (generate base_url request net calls)) = 504 /\
    fst (generate base_url request net calls) <> Raised (exception_of Unreachable) /\
    issubclass ConnectTimeout TimeoutException = true /\
    issubclass ConnectTimeout ConnectError = false.
Proof.
  intros base_url request net calls message Hcfg Hnet.
  rewrite (generate_timeout base_url request net calls Hcfg _ Hnet eq_refl).
  repeat split. discriminate.
Qed.

Lemma generate_connect_timeout_is_timeout_witness :
  fst (generate "http://colab" (mkPromptRequest "a cat")
         (always (Failed (Error ConnectTimeout ""))) [])
  = Raised (exception_of Timeout) /\
  http_status
    (fst (generate "http://colab" (mkPromptRequest "a cat")
            (always (Failed (Error ConnectTimeout ""))) []))
  = 504 /\
  fst (generate "http://colab" (mkPromptRequest "a cat")
         (always (Failed (Error ConnectTimeout ""))) [])
  <> Raised (exception_of Unreachable) /\
  issubclass ConnectTimeout TimeoutException = true /\
  issubclass ConnectTimeout ConnectError = false.
Proof.
  apply (generate_connect_timeout_is_timeout
           "http://colab" (mkPromptRequest "a cat")
           (always (Failed (Error ConnectTimeout ""))) [] "").
  - discriminate.
  - reflexivity.
Defined.

(** C8: with a configured upstream that answers 2xx with a body that is not
    valid JSON, [generate] neither returns a result nor raises one of the four
    errors of the relay: the decoding error, a [ValueError], escapes the
    handler, and the route answers 500. *)
Theorem generate_undecodable_body_escapes :
  forall (base_url : string) (request : PromptRequest) (net : Network)
         (calls : list Call) (r : Response) (raw : string) (why : decode_error),
    base_url <> "" ->
    net calls (generation_call base_url request) = Responded r ->
    200 <= status_code r <= 299 ->
    body r = Undecodable raw why ->
    (forall P : json, fst (generate base_url request net calls) <> Returned P) /\
    (forall kind : ErrorKind,
        fst (generate base_url request net calls) <> Raised (exception_of kind)) /\
    fst (generate base_url request net calls) = Raised (decode_exception why) /\
    isinstance (decode_exception why) ValueError = true /\
    http_status (fst (generate base_url request net calls)) = 500.
Proof.
  intros base_url request net calls r raw why Hcfg Hnet Hcode Hbody.
  apply is_success_range in Hcode.
  rewrite (generate_undecodable base_url request net calls Hcfg r raw why Hnet Hcode Hbody).
  cbn [fst]. repeat split.
  - discriminate.
  - intros kind. destruct kind, why; discriminate.
  - destruct why; reflexivity.
  - destruct why; reflexivity.
Qed.

Lemma generate_undecodable_body_escapes_witness :
  let why := BadSyntax "Expecting value: line 1 column 1 (char 0)" in
  let reply := mkResponse 200 (Undecodable "<html>ngrok</html>" why) "" in
  let outcome :=
    fst (generate "http://colab" (mkPromptRequest "a cat") (always (Responded reply)) []) in
  (forall P : json, outcome <> Returned P) /\
  (forall kind : ErrorKind, outcome <> Raised (exception_of kind)) /\
  outcome = Raised (decode_exception why) /\
  isinstance (decode_exception why) ValueError = true /\
  http_status outcome = 500.
Proof.
  intros why reply outcome.
  apply (generate_undecodable_body_escapes
           "http://colab" (mkPromptRequest "a cat") (always (Responded reply)) []
           reply "<html>ngrok</html>" why).
  - discriminate.
  - reflexivity.
  - simpl. lia.
  - reflexivity.
Defined.

(** C10: with a configured upstream, one run of [generate] adds exactly one
    call to the calls made, whatever the reply: a POST to the generation
    endpoint whose JSON payload is an object with the prompt as its only
    field. *)
Theorem generate_makes_one_call :
  forall (base_url : string) (request : PromptRequest) (net : Network)
         (calls : list Call),
    base_url <> "" ->
    exists c : Call,
      snd (generate base_url request net calls) = (calls ++ [c])%list /\
      method c = POST /\
      url c = base_url ++ "/generate" /\
      payload c = Some (JDict [("prompt", JStr (prompt request))]).
Proof.
  intros base_url request net calls Hcfg.
  exists (generation_call base_url request).
  rewrite (generate_calls base_url request net calls Hcfg).
  repeat split.
Qed.

Lemma generate_makes_one_call_witness :
  exists c : Call,
    snd (generate "http://colab" (mkPromptRequest "a cat")
           (always (Failed (Error ReadTimeout ""))) [])
    = ([] ++ [c])%list /\
    method c = POST /\
    url c = "http://colab" ++ "/generate" /\
    payload c = Some (JDict [("prompt", JStr (prompt (mkPromptRequest "a cat")))]).
Proof.
  apply (generate_makes_one_call
           "http://colab" (mkPromptRequest "a cat")
           (always (Failed (Error ReadTimeout ""))) []).
  discriminate.
Defined.

(** ** GET /api/colab-status *)

(** C6, as stated, fails: with no upstream base address the reason is not
    the text "not configured". *)
Lemma colab_status_unconfigured_reason_differs :
  fst (colab_status "" (always (Failed (Error ConnectError ""))) [])
  <> Returned (JDict [("online", JBool false); ("reason", JStr "not configured")]).
Proof. cbv. discriminate. Qed.

(** C6, amended: with no upstream base address, [colab_status] returns
    exactly [{online: false, reason: "COLAB_API_URL not configured"}] and
    makes no outbound call. *)
Theorem colab_status_unconfigured :
  forall (net : Network) (calls : list Call),
    colab_status "" net calls
    = (Returned (JDict [("online", JBool false);
                        ("reason", JStr "COLAB_API_URL not configured")]),
       calls).
Proof. intros net calls. reflexivity. Qed.

(** A probe that times out with an exception whose text is empty gives an
    empty reason: the result is neither [{online: true, detail: payload}]
    nor [{online: false, reason: r}] with [r] non-empty. *)
Lemma colab_status_reason_can_be_empty :
  ~ ((exists detail : json,
        fst (colab_status "http://colab" (always (Failed (Error ReadTimeout ""))) [])
        = Returned (JDict [("online", JBool true); ("detail", detail)])) \/
     (exists reason : string,
        reason <> "" /\
        fst (colab_status "http://colab" (always (Failed (Error ReadTimeout ""))) [])
        = Returned (JDict [("online", JBool false); ("reason", JStr reason)]))).
Proof.
  intros [[detail H] | [reason [Hne H]]]; cbv in H.
  - discriminate H.
  - apply Hne. injection H as <-. reflexivity.
Qed.

(** A health endpoint that answers with a JSON body holding a float that is
    not finite (here [NaN]) makes [colab_status] return
    [{online: true, detail: NaN}], which FastAPI refuses to serialise: the
    route answers 500. *)
Lemma colab_status_non_finite_detail_is_500 :
  fst (colab_status "http://colab"
         (always (Responded (mkResponse 200 (JsonDocument (JFloat float_nan)) ""))) [])
  = Returned (JDict [("online", JBool true); ("detail", JFloat float_nan)]) /\
  http_status
    (fst (colab_status "http://colab"
            (always (Responded (mkResponse 200 (JsonDocument (JFloat float_nan)) ""))) []))
  = 500.
Proof. split; reflexivity. Qed.

(** C5, as stated, fails twice.  When the probe times out with an exception
    whose text is empty, the result is neither [{online: true, detail: payload}]
    nor [{online: false, reason: r}] with [r] non-empty.  And when the health
    endpoint answers with a float that is not finite, the route does not
    answer 200. *)
Lemma colab_status_contract_fails :
  ~ ((exists detail : json,
        fst (colab_status "http://colab" (always (Failed (Error ReadTimeout ""))) [])
        = Returned (JDict [("online", JBool true); ("detail", detail)])) \/
     (exists reason : string,
        reason <> "" /\
        fst (colab_status "http://colab" (always (Failed (Error ReadTimeout ""))) [])
        = Returned (JDict [("online", JBool false); ("reason", JStr reason)]))) /\
  http_status
    (fst (colab_status "http://colab"
            (always (Responded (mkResponse 200 (JsonDocument (JFloat float_nan)) ""))) []))
  <> 200.
Proof.
  split.
  - exact colab_status_reason_can_be_empty.
  - rewrite (proj2 colab_status_non_finite_detail_is_500). discriminate.
Qed.

(** C5, amended: the handler [colab_status] never raises, whatever the
    upstream does (it answers, or the probe fails with an exception deriving
    from [Exception]: connection failure, timeout, malformed response).  It
    returns [{online: true, detail: payload}] exactly when the base address
    is configured and the upstream answers with a JSON body, and otherwise
    [{online: false, reason: text}], where the text is the fixed one of the
    unconfigured case or the text of the exception, which may be empty.
    The route answers 200 for every offline result; for an online result it
    answers 200 or 500, and 500 when the detail holds a float that is not
    finite. *)
Theorem colab_status_never_raises :
  forall (base_url : string) (net : Network) (calls : list Call),
    (forall e : exn,
        net calls (health_call base_url) = Failed e -> isinstance e Exception = true) ->
    ((exists detail : json,
         fst (colab_status base_url net calls)
         = Returned (JDict [("online", JBool true); ("detail", detail)])) \/
     (exists reason : string,
         fst (colab_status base_url net calls)
         = Returned (JDict [("online", JBool false); ("reason", JStr reason)]))) /\
    (base_url = "" ->
     fst (colab_status base_url net calls)
     = Returned (JDict [("online", JBool false);
                        ("reason", JStr "COLAB_API_URL not configured")])) /\
    (forall (r : Response) (detail : json),
        base_url <> "" ->
        net calls (health_call base_url) = Responded r ->
        body r = JsonDocument detail ->
        fst (colab_status base_url net calls)
        = Returned (JDict [("online", JBool true); ("detail", detail)])) /\
    (forall (r : Response) (raw : string) (why : decode_error),
        base_url <> "" ->
        net calls (health_call base_url) = Responded r ->
        body r = Undecodable raw why ->
        fst (colab_status base_url net calls)
        = Returned (JDict [("online", JBool false);
                           ("reason", JStr (str (decode_exception why)))])) /\
    (forall e : exn,
        base_url <> "" ->
        net calls (health_call base_url) = Failed e ->
        fst (colab_status base_url net calls)
        = Returned (JDict [("online", JBool false); ("reason", JStr (str e))])) /\
    (forall reason : string,
        fst (colab_status base_url net calls)
        = Returned (JDict [("online", JBool false); ("reason", JStr reason)]) ->
        http_status (fst (colab_status base_url net calls)) = 200) /\
    (forall detail : json,
        fst (colab_status base_url net calls)
        = Returned (JDict [("online", JBool true); ("detail", detail)]) ->
        (http_status (fst (colab_status base_url net calls)) = 200 \/
         http_status (fst (colab_status base_url net calls)) = 500) /\
        (json_compliant detail = false ->
         http_status (fst (colab_status base_url net calls)) = 500)).
Proof.
  intros base_url net calls Hexc.
  assert (Hoffline : forall reason : string,
             fst (colab_status base_url net calls)
             = Returned (JDict [("online", JBool false); ("reason", JStr reason)]) ->
             http_status (fst (colab_status base_url net calls)) = 200).
  { intros reason H. rewrite H. reflexivity. }
  assert (Honline : forall detail : json,
             fst (colab_status base_url net calls)
             = Returned (JDict [("online", JBool true); ("detail", detail)]) ->
             (http_status (fst (colab_status base_url net calls)) = 200 \/
              http_status (fst (colab_status base_url net calls)) = 500) /\
             (json_compliant detail = false ->
              http_status (fst (colab_status base_url net calls)) = 500)).
  { intros detail H. rewrite H. cbn. rewrite andb_true_r.
    destruct (json_compliant detail); split; auto; discriminate. }
  destruct (string_dec base_url "") as [-> | Hcfg].
  - split; [right; eexists; reflexivity |].
    split; [reflexivity |].
    split; [intros r detail Hne; now contradiction Hne |].
    split; [intros r raw why Hne; now contradiction Hne |].
    split; [intros e Hne; now contradiction Hne |].
    split; assumption.
  - split.
    + destruct (net calls (health_call base_url)) as [r | e] eqn:Hnet.
      * destruct (body r) as [detail | raw why] eqn:Hbody.
        -- left. exists detail.
           now rewrite (colab_status_online base_url net calls Hcfg r detail Hnet Hbody).
        -- right. eexists.
           now rewrite (colab_status_undecodable base_url net calls Hcfg r raw why
                          Hnet Hbody).
      * right. eexists.
        now rewrite (colab_status_failed base_url net calls Hcfg e Hnet (Hexc e eq_refl)).
    + split; [intro H; contradiction |].
      split.
      { intros r detail _ Hnet Hbody.
        now rewrite (colab_status_online base_url net calls Hcfg r detail Hnet Hbody). }
      split.
      { intros r raw why _ Hnet Hbody.
        now rewrite (colab_status_undecodable base_url net calls Hcfg r raw why Hnet Hbody). }
      split.
      { intros e _ Hnet.
        now rewrite (colab_status_failed base_url net calls Hcfg e Hnet (Hexc e Hnet)). }
      split; assumption.
Qed.

Lemma colab_status_never_raises_witness :
  let net := always (Failed (Error ReadTimeout "")) in
  ((exists detail : json,
       fst (colab_status "http://colab" net [])
       = Returned (JDict [("online", JBool true); ("detail", detail)])) \/
   (exists reason : string,
       fst (colab_status "http://colab" net [])
       = Returned (JDict [("online", JBool false); ("reason", JStr reason)]))) /\
  ("http://colab" = "" ->
   fst (colab_status "http://colab" net [])
   = Returned (JDict [("online", JBool false);
                      ("reason", JStr "COLAB_API_URL not configured")])) /\
  (forall (r : Response) (detail : json),
      "http://colab" <> "" ->
      net [] (health_call "http://colab") = Responded r ->
      body r = JsonDocument detail ->
      fst (colab_status "http://colab" net [])
      = Returned (JDict [("online", JBool true); ("detail", detail)])) /\
  (forall (r : Response) (raw : string) (why : decode_error),
      "http://colab" <> "" ->
      net [] (health_call "http://colab") = Responded r ->
      body r = Undecodable raw why ->
      fst (colab_status "http://colab" net [])
      = Returned (JDict [("online", JBool false);
                         ("reason", JStr (str (decode_exception why)))])) /\
  (forall e : exn,
      "http://colab" <> "" ->
      net [] (health_call "http://colab") = Failed e ->
      fst (colab_status "http://colab" net [])
      = Returned (JDict [("online", JBool false); ("reason", JStr (str e))])) /\
  (forall reason : string,
      fst (colab_status "http://colab" net [])
      = Returned (JDict [("online", JBool false); ("reason", JStr reason)]) ->
      http_status (fst (colab_status "http://colab" net [])) = 200) /\
  (forall detail : json,
      fst (colab_status "http://colab" net [])
      = Returned (JDict [("online", JBool true); ("detail", detail)]) ->
      (http_status (fst (colab_status "http://colab" net [])) = 200 \/
       http_status (fst (colab_status "http://colab" net [])) = 500) /\
      (json_compliant detail = false ->
       http_status (fst (colab_status "http://colab" net [])) = 500)).
Proof.
  intro net.
  apply (colab_status_never_raises "http://colab" net []).
  intros e H. injection H as <-. reflexivity.
Defined.

(** * Further properties of the handlers *)

(** ** More runs against one reply *)

Lemma appended_call_differs (calls : list Call) (c : Call) :
  (calls ++ [c])%list <> calls.
Proof.
  intro H. apply (f_equal (@length Call)) in H.
  rewrite length_app in H. simpl in H. apply (f_equal Z.of_nat) in H. lia.
Qed.

Section OtherReplies.

Variables (base_url : string) (request : PromptRequest).
Variables (net : Network) (calls : list Call).
Hypothesis configured : base_url <> "".

Let sent := (calls ++ [generation_call base_url request])%list.
Let probed := (calls ++ [health_call base_url])%list.

Lemma generate_escape (e : exn) :
  net calls (generation_call base_url request) = Failed e ->
  isinstance e ConnectError = false ->
  isinstance e TimeoutException = false ->
  isinstance e HTTPStatusError = false ->
  generate base_url request net calls = (Raised e, sent).
Proof.
  intros Hnet Hc Ht Hs.
  unfold generate, sent, generation_call in *. configured_run configured.
  rewrite Hnet, Hc, Ht, Hs. reflexivity.
Qed.

Lemma generate_failure_raises (e : exn) :
  net calls (generation_call base_url request) = Failed e ->
  exists e' : exn, fst (generate base_url request net calls) = Raised e'.
Proof.
  intros Hnet.
  unfold generate, generation_call in *. configured_run configured.
  rewrite Hnet.
  destruct (isinstance e ConnectError); [eexists; reflexivity |].
  destruct (isinstance e TimeoutException); [eexists; reflexivity |].
  destruct (isinstance e HTTPStatusError); [| eexists; reflexivity].
  destruct e; eexists; reflexivity.
Qed.

Lemma colab_status_calls : snd (colab_status base_url net calls) = probed.
Proof.
  unfold colab_status, probed, health_call. configured_run configured.
  destruct (net calls _) as [r | e].
  - unfold json_of. destruct (body r) as [v | raw why]; [reflexivity |].
    destruct why; reflexivity.
  - destruct (isinstance e Exception); reflexivity.
Qed.

Lemma colab_status_escape (e : exn) :
  net calls (health_call base_url) = Failed e ->
  isinstance e Exception = false ->
  colab_status base_url net calls = (Raised e, probed).
Proof.
  intros Hnet Hcls.
  unfold colab_status, probed, health_call in *. configured_run configured.
  rewrite Hnet, Hcls. reflexivity.
Qed.

End OtherReplies.

(** ** POST /api/generate *)

(** X1: with a configured upstream, any 2xx answer (201 or 202 as well as
    200) whose body is a JSON document [P] makes [generate] return exactly
    [P] after its one call.  The upstream's own success status is not passed
    on: the route answers 200, or 500 when the payload is refused by the
    serialiser, whatever 2xx status the upstream gave. *)
Theorem generate_success_status_not_passed_on :
  forall (base_url : string) (request : PromptRequest) (net : Network)
         (calls : list Call) (r : Response) (P : json),
    base_url <> "" ->
    net calls (generation_call base_url request) = Responded r ->
    200 <= status_code r <= 299 ->
    body r = JsonDocument P ->
    generate base_url request net calls
    = (Returned P, (calls ++ [generation_call base_url request])%list) /\
    (http_status (fst (generate base_url request net calls)) = 200 \/
     http_status (fst (generate base_url request net calls)) = 500).
Proof.
  intros base_url request net calls r P Hcfg Hnet Hcode Hbody.
  apply is_success_range in Hcode.
  rewrite (generate_success base_url request net calls Hcfg r P Hnet Hcode Hbody).
  split; [reflexivity |].
  cbn [fst]. unfold http_status. destruct (json_compliant P); auto.
Qed.

Lemma generate_success_status_not_passed_on_witness :
  generate "http://colab" (mkPromptRequest "a cat")
    (always (Responded (mkResponse 201 (JsonDocument (JDict [("id", JInt 7)])) ""))) []
  = (Returned (JDict [("id", JInt 7)]),
     ([] ++ [generation_call "http://colab" (mkPromptRequest "a cat")])%list) /\
  (http_status
     (fst (generate "http://colab" (mkPromptRequest "a cat")
             (always (Responded (mkResponse 201 (JsonDocument (JDict [("id", JInt 7)])) "")))
             []))
   = 200 \/
   http_status
     (fst (generate "http://colab" (mkPromptRequest "a cat")
             (always (Responded (mkResponse 201 (JsonDocument (JDict [("id", JInt 7)])) "")))
             []))
   = 500).
Proof.
  apply (generate_success_status_not_passed_on
           "http://colab" (mkPromptRequest "a cat")
           (always (Responded (mkResponse 201 (JsonDocument (JDict [("id", JInt 7)])) "")))
           [] (mkResponse 201 (JsonDocument (JDict [("id", JInt 7)])) "")
           (JDict [("id", JInt 7)])).
  - discriminate.
  - reflexivity.
  - simpl. lia.
  - reflexivity.
Defined.

(** X2: [generate] makes nothing up.  When it returns a payload [P], the
    upstream base address is configured and the upstream answered this very
    call with a 2xx status and the JSON document [P]. *)
Theorem generate_returns_only_upstream_payload :
  forall (base_url : string) (request : PromptRequest) (net : Network)
         (calls : list Call) (P : json),
    fst (generate base_url request net calls) = Returned P ->
    base_url <> "" /\
    exists r : Response,
      net calls (generation_call base_url request) = Responded r /\
      200 <= status_code r <= 299 /\
      body r = JsonDocument P.
Proof.
  intros base_url request net calls P H.
  destruct (string_dec base_url "") as [-> | Hcfg]; [discriminate H |].
  split; [exact Hcfg |].
  destruct (net calls (generation_call base_url request)) as [r | e] eqn:Hnet.
  - destruct (is_success r) eqn:Hok.
    + destruct (body r) as [v | raw why] eqn:Hbody.
      * rewrite (generate_success base_url request net calls Hcfg r v Hnet Hok Hbody) in H.
        injection H as <-. exists r.
        split; [reflexivity |]. split; [apply is_success_range, Hok | exact Hbody].
      * rewrite (generate_undecodable base_url request net calls Hcfg r raw why
                   Hnet Hok Hbody) in H.
        discriminate H.
    + rewrite (generate_status_error base_url request net calls Hcfg r Hnet Hok) in H.
      discriminate H.
  - destruct (generate_failure_raises base_url request net calls Hcfg e Hnet) as [e' He'].
    rewrite He' in H. discriminate H.
Qed.

Lemma generate_returns_only_upstream_payload_witness :
  "http://colab" <> "" /\
  exists r : Response,
    always (Responded (mkResponse 200 (JsonDocument (JStr "done")) "")) []
      (generation_call "http://colab" (mkPromptRequest "a cat"))
    = Responded r /\
    200 <= status_code r <= 299 /\
    body r = JsonDocument (JStr "done").
Proof.
  apply (generate_returns_only_upstream_payload
           "http://colab" (mkPromptRequest "a cat")
           (always (Responded (mkResponse 200 (JsonDocument (JStr "done")) ""))) []
           (JStr "done")).
  reflexivity.
Defined.

(** X3: with a configured upstream, a failure of the call that is neither a
    connect error, nor a timeout, nor a status error (a broken read, a
    protocol error, an unsupported URL scheme, ...) is not translated:
    the exception leaves [generate] as it came, and the route answers 500. *)
Theorem generate_other_failures_escape :
  forall (base_url : string) (request : PromptRequest) (net : Network)
         (calls : list Call) (cls : pyclass) (message : string),
    base_url <> "" ->
    net calls (generation_call base_url request) = Failed (Error cls message) ->
    issubclass cls ConnectError = false ->
    issubclass cls TimeoutException = false ->
    issubclass cls HTTPStatusError = false ->
    fst (generate base_url request net calls) = Raised (Error cls message) /\
    http_status (fst (generate base_url request net calls)) = 500.
Proof.
  intros base_url request net calls cls message Hcfg Hnet Hc Ht Hs.
  rewrite (generate_escape base_url request net calls Hcfg (Error cls message) Hnet Hc Ht Hs).
  split; reflexivity.
Qed.

Lemma generate_other_failures_escape_witness :
  fst (generate "colab.example" (mkPromptRequest "a cat")
         (always (Failed (Error UnsupportedProtocol
                            "Request URL is missing an 'http://' or 'https://' protocol.")))
         [])
  = Raised (Error UnsupportedProtocol
              "Request URL is missing an 'http://' or 'https://' protocol.") /\
  http_status
    (fst (generate "colab.example" (mkPromptRequest "a cat")
            (always (Failed (Error UnsupportedProtocol
                               "Request URL is missing an 'http://' or 'https://' protocol.")))
            []))
  = 500.
Proof.
  apply (generate_other_failures_escape
           "colab.example" (mkPromptRequest "a cat")
           (always (Failed (Error UnsupportedProtocol
                              "Request URL is missing an 'http://' or 'https://' protocol.")))
           [] UnsupportedProtocol
           "Request URL is missing an 'http://' or 'https://' protocol.").
  - discriminate.
  - reflexivity.
  - reflexivity.
  - reflexivity.
  - reflexivity.
Defined.

(** ** GET /api/colab-status *)

(** X4: [colab_status] does not look at the status code of the answer.  With
    a configured upstream, any response whose body is a JSON document, a 500
    as much as a 200, is reported as [{online: true, detail: body}]. *)
Theorem colab_status_ignores_status_code :
  forall (base_url : string) (net : Network) (calls : list Call)
         (r : Response) (detail : json),
    base_url <> "" ->
    net calls (health_call base_url) = Responded r ->
    body r = JsonDocument detail ->
    fst (colab_status base_url net calls)
    = Returned (JDict [("online", JBool true); ("detail", detail)]).
Proof.
  intros base_url net calls r detail Hcfg Hnet Hbody.
  rewrite (colab_status_online base_url net calls Hcfg r detail Hnet Hbody).
  reflexivity.
Qed.

Lemma colab_status_ignores_status_code_witness :
  fst (colab_status "http://colab"
         (always (Responded
                    (mkResponse 500
                       (JsonDocument (JDict [("detail", JStr "Internal Server Error")]))
                       "")))
         [])
  = Returned (JDict [("online", JBool true);
                     ("detail", JDict [("detail", JStr "Internal Server Error")])]).
Proof.
  apply (colab_status_ignores_status_code
           "http://colab"
           (always (Responded
                      (mkResponse 500
                         (JsonDocument (JDict [("detail", JStr "Internal Server Error")]))
                         "")))
           []
           (mkResponse 500
              (JsonDocument (JDict [("detail", JStr "Internal Server Error")])) "")
           (JDict [("detail", JStr "Internal Server Error")])).
  - discriminate.
  - reflexivity.
  - reflexivity.
Defined.

(** X5: with a configured upstream, an answer whose body does not decode as
    JSON (an HTML page, say) is reported as offline, whatever its status
    code, and the reason is the text of the decoding error. *)
Theorem colab_status_non_json_is_offline :
  forall (base_url : string) (net : Network) (calls : list Call)
         (r : Response) (raw : string) (why : decode_error),
    base_url <> "" ->
    net calls (health_call base_url) = Responded r ->
    body r = Undecodable raw why ->
    fst (colab_status base_url net calls)
    = Returned (JDict [("online", JBool false);
                       ("reason", JStr (str (decode_exception why)))]).
Proof.
  intros base_url net calls r raw why Hcfg Hnet Hbody.
  rewrite (colab_status_undecodable base_url net calls Hcfg r raw why Hnet Hbody).
  reflexivity.
Qed.

Lemma colab_status_non_json_is_offline_witness :
  fst (colab_status "http://colab"
         (always (Responded
                    (mkResponse 200
                       (Undecodable "<html>tunnel not found</html>"
                          (BadSyntax "Expecting value: line 1 column 1 (char 0)"))
                       "")))
         [])
  = Returned (JDict [("online", JBool false);
                     ("reason",
                      JStr (str (decode_exception
                                   (BadSyntax "Expecting value: line 1 column 1 (char 0)"))))]).
Proof.
  apply (colab_status_non_json_is_offline
           "http://colab"
           (always (Responded
                      (mkResponse 200
                         (Undecodable "<html>tunnel not found</html>"
                            (BadSyntax "Expecting value: line 1 column 1 (char 0)"))
                         "")))
           []
           (mkResponse 200
              (Undecodable "<html>tunnel not found</html>"
                 (BadSyntax "Expecting value: line 1 column 1 (char 0)"))
              "")
           "<html>tunnel not found</html>"
           (BadSyntax "Expecting value: line 1 column 1 (char 0)")).
  - discriminate.
  - reflexivity.
  - reflexivity.
Defined.

(** X6: with a configured upstream, one run of [colab_status] adds exactly
    one call to the calls made, whatever the reply: a GET of the health
    endpoint, without a payload, with a timeout of 10 seconds. *)
Theorem colab_status_makes_one_call :
  forall (base_url : string) (net : Network) (calls : list Call),
    base_url <> "" ->
    exists c : Call,
      snd (colab_status base_url net calls) = (calls ++ [c])%list /\
      method c = GET /\
      url c = base_url ++ "/health" /\
      payload c = None /\
      timeout c = 10.
Proof.
  intros base_url net calls Hcfg.
  exists (health_call base_url).
  rewrite (colab_status_calls base_url net calls Hcfg).
  repeat split.
Qed.

Lemma colab_status_makes_one_call_witness :
  exists c : Call,
    snd (colab_status "http://colab" (always (Failed (Error ConnectError ""))) [])
    = ([] ++ [c])%list /\
    method c = GET /\
    url c = "http://colab" ++ "/health" /\
    payload c = None /\
    timeout c = 10.
Proof.
  apply (colab_status_makes_one_call
           "http://colab" (always (Failed (Error ConnectError ""))) []).
  discriminate.
Defined.

(** X7: [colab_status] reports [online: true] only for an upstream that
    answered.  When it returns [{online: true, detail: d}], the base address
    is configured and the probe got a response whose body is the JSON
    document [d]. *)
Theorem colab_status_online_only_if_answered :
  forall (base_url : string) (net : Network) (calls : list Call) (detail : json),
    fst (colab_status base_url net calls)
    = Returned (JDict [("online", JBool true); ("detail", detail)]) ->
    base_url <> "" /\
    exists r : Response,
      net calls (health_call base_url) = Responded r /\
      body r = JsonDocument detail.
Proof.
  intros base_url net calls detail H.
  destruct (string_dec base_url "") as [-> | Hcfg]; [discriminate H |].
  split; [exact Hcfg |].
  destruct (net calls (health_call base_url)) as [r | e] eqn:Hnet.
  - destruct (body r) as [v | raw why] eqn:Hbody.
    + rewrite (colab_status_online base_url net calls Hcfg r v Hnet Hbody) in H.
      injection H as <-. exists r. split; [reflexivity | exact Hbody].
    + rewrite (colab_status_undecodable base_url net calls Hcfg r raw why Hnet Hbody) in H.
      discriminate H.
  - destruct (isinstance e Exception) eqn:Hcls.
    + rewrite (colab_status_failed base_url net calls Hcfg e Hnet Hcls) in H.
      discriminate H.
    + rewrite (colab_status_escape base_url net calls Hcfg e Hnet Hcls) in H.
      discriminate H.
Qed.

Lemma colab_status_online_only_if_answered_witness :
  "http://colab" <> "" /\
  exists r : Response,
    always (Responded (mkResponse 200 (JsonDocument (JDict [("status", JStr "ok")])) "")) []
      (health_call "http://colab")
    = Responded r /\
    body r = JsonDocument (JDict [("status", JStr "ok")]).
Proof.
  apply (colab_status_online_only_if_answered
           "http://colab"
           (always (Responded (mkResponse 200 (JsonDocument (JDict [("status", JStr "ok")])) "")))
           [] (JDict [("status", JStr "ok")])).
  reflexivity.
Defined.

(** X8: [except Exception] leaves alone what does not derive from
    [Exception].  With a configured upstream, a probe that ends in such an
    exception (the cancellation of the request, a keyboard interrupt) is not
    folded into [{online: false, ...}]: the exception leaves [colab_status]
    as it came, after the one call. *)
Theorem colab_status_non_exception_escapes :
  forall (base_url : string) (net : Network) (calls : list Call) (e : exn),
    base_url <> "" ->
    net calls (health_call base_url) = Failed e ->
    isinstance e Exception = false ->
    colab_status base_url net calls
    = (Raised e, (calls ++ [health_call base_url])%list).
Proof.
  intros base_url net calls e Hcfg Hnet Hcls.
  apply (colab_status_escape base_url net calls Hcfg e Hnet Hcls).
Qed.

Lemma colab_status_non_exception_escapes_witness :
  colab_status "http://colab" (always (Failed (Error CancelledError ""))) []
  = (Raised (Error CancelledError ""), ([] ++ [health_call "http://colab"])%list).
Proof.
  apply (colab_status_non_exception_escapes
           "http://colab" (always (Failed (Error CancelledError ""))) []
           (Error CancelledError "")).
  - discriminate.
  - reflexivity.
  - reflexivity.
Defined.

(** ** The three routes together *)

(** X9: the flag of [health] tells what the other two routes will do.
    [colab_url_configured] is true exactly when [generate] makes an outbound
    call, and exactly when [colab_status] makes one; when it is false neither
    does, whatever the prompt and the network. *)
Theorem health_flag_predicts_outbound_calls :
  forall (base_url : string) (request : PromptRequest) (net : Network)
         (calls : list Call),
    exists b : bool,
      fst (health base_url net calls)
      = Returned (JDict [("status", JStr "ok"); ("colab_url_configured", JBool b)]) /\
      (b = true <-> snd (generate base_url request net calls) <> calls) /\
      (b = true <-> snd (colab_status base_url net calls) <> calls).
Proof.
  intros base_url request net calls. exists (truthy base_url).
  split; [reflexivity |].
  destruct (string_dec base_url "") as [-> | Hcfg].
  - split; (split; [discriminate | intro H; now contradiction H]).
  - rewrite (generate_calls base_url request net calls Hcfg).
    rewrite (colab_status_calls base_url net calls Hcfg).
    rewrite (truthy_configured base_url Hcfg).
    split; (split; [intros _; apply appended_call_differs | reflexivity]).
Qed.
